(** * A shallow embedding of rr's [GdbServer] (src/GdbServer.h)

    The header declares the server's data model (the [Target] and
    [ConnectionFlags] structs, the [Checkpoint] struct, the server's
    fields) and defines a few members inline ([interrupt_replay_to_target],
    [current_session] and both constructors).  Those are translated as
    they are written.  The bodies of the other members live in
    GdbServer.cc, which is not part of this development; where a property
    depends on one of them, the definition says so with
    "Modelled from the spec:" and follows the specification's words and
    the member's doc comment in the header. *)

From stdpp Require Import base gmap list.

(* ------------------------------------------------------------------ *)
(** ** Engine handles *)

(** [pid_t] and [TraceFrame::Time] are signed machine integers. *)
Definition pid_t := Z.
Definition FrameTime := Z.

(** [TaskUid] and [TaskGroupUid] are (tid, serial) pairs; their default
    constructors give (0, 0). *)
Record TaskUid := mkTaskUid { tuid_tid : pid_t; tuid_serial : N }.
Record TaskGroupUid := mkTaskGroupUid { tguid_tid : pid_t; tguid_serial : N }.

Definition TaskUid_default : TaskUid := mkTaskUid 0%Z 0%N.
Definition TaskGroupUid_default : TaskGroupUid := mkTaskGroupUid 0%Z 0%N.

(** Sessions (replay, diversion, live) are engine objects; the server only
    holds references to them, modelled as identifiers into a session store. *)
Definition SessionId := nat.

(** A [Task] as far as the server reads it: [t->tuid()],
    [t->task_group()->tguid()] and [&t->session()]. *)
Record Task := mkTask {
  task_tuid : TaskUid;
  task_tguid : TaskGroupUid;
  task_session : SessionId
}.

(** [ReplayTimeline::Mark] wraps a shared pointer to an internal mark; a
    default-constructed mark is null ([None]).  A non-null mark names a
    position of the timeline. *)
Definition Mark := option nat.

(** The debugger connection ([std::unique_ptr<GdbConnection>]); [None] is
    the null pointer. *)
Definition GdbConnection := nat.

(** [ScopedFd] wraps a file descriptor. *)
Definition ScopedFd := Z.

(* ------------------------------------------------------------------ *)
(** ** [GdbServer::Target] *)

Record Target := mkTarget {
  (* Target process to debug, or 0 to just debug the first process *)
  pid : pid_t;
  (* If true, wait for the target process to exec() before attaching *)
  require_exec : bool;
  (* Wait until at least 'event' has elapsed before attaching *)
  event : FrameTime
}.

(** [Target() : pid(0), require_exec(false), event(0) {}] *)
Definition Target_default : Target := mkTarget 0%Z false 0%Z.

(* ------------------------------------------------------------------ *)
(** ** [GdbServer::ConnectionFlags] *)

Record ConnectionFlags := mkConnectionFlags {
  (* -1 to let GdbServer choose the port, a positive integer to select a
     specific port to listen on. *)
  dbg_port : Z;
  (* If non-null, connection parameters are written through this pipe. *)
  debugger_params_write_pipe : option ScopedFd
}.

(** [ConnectionFlags() : dbg_port(-1), debugger_params_write_pipe(nullptr) {}] *)
Definition ConnectionFlags_default : ConnectionFlags := mkConnectionFlags (-1)%Z None.

(** How the listen port is selected, as the field comment of [dbg_port]
    documents it (the use site, [serve_replay], is in GdbServer.cc). *)
Inductive PortChoice := ServerChoosesPort | ListenOnPort (port : Z).

(** Modelled from the spec: the listen-port selector of [serve_replay]
    ("explicit port or any"), following the field comment of [dbg_port]. *)
Definition port_choice (flags : ConnectionFlags) : PortChoice :=
  if Z.eqb (dbg_port flags) (-1)%Z then ServerChoosesPort
  else ListenOnPort (dbg_port flags).

(** Modelled from the spec: the optional handoff channel of [serve_replay];
    connection parameters are written through the pipe when it is non-null,
    and an external client can only be auto-launched from its other end. *)
Definition params_handoff (flags : ConnectionFlags) : option ScopedFd :=
  debugger_params_write_pipe flags.

(* ------------------------------------------------------------------ *)
(** ** [GdbServer::Checkpoint] *)

Module Checkpoint.

Record t := mk {
  mark : Mark;
  last_continue_tuid : TaskUid
}.

(** [Checkpoint() = default]: null mark, default TaskUid. *)
Definition default : t := mk None TaskUid_default.

End Checkpoint.

(* ------------------------------------------------------------------ *)
(** ** [ReplayTimeline] *)

(** The part of [ReplayTimeline] the server observes: the replay session
    it currently drives (none when it is not running) and its position. *)
Record ReplayTimeline := mkReplayTimeline {
  tl_current_session : option SessionId;
  tl_position : nat
}.

(** Modelled from the spec: a default-constructed [ReplayTimeline] (the
    emergency constructor leaves [timeline] default-initialised) drives no
    session, so the emergency path "bypasses the replay timeline". *)
Definition ReplayTimeline_default : ReplayTimeline := mkReplayTimeline None 0.

(** Modelled from the spec: [ReplayTimeline(session, flags)] drives
    [session] from its start. *)
Definition ReplayTimeline_make (session : SessionId) : ReplayTimeline :=
  mkReplayTimeline (Some session) 0.

Definition is_running (tl : ReplayTimeline) : bool :=
  match tl_current_session tl with Some _ => true | None => false end.

(** [timeline.mark()]: a mark at the current position. *)
Definition timeline_mark (tl : ReplayTimeline) : Mark := Some (tl_position tl).

(* ------------------------------------------------------------------ *)
(** ** The server's fields *)

Record GdbServer := mkGdbServer {
  target : Target;
  dbg : option GdbConnection;
  debuggee_tguid : TaskGroupUid;
  last_continue_tuid : TaskUid;
  last_query_tuid : TaskUid;
  stop_replaying_to_target : bool;
  timeline : ReplayTimeline;
  emergency_debug_session : option SessionId;
  debugger_restart_checkpoint : Checkpoint.t;
  checkpoints : gmap Z Checkpoint.t
}.

(** The public constructor [GdbServer(session, flags, target)]; members
    not in the initialiser list are default-initialised. *)
Definition GdbServer_replay (session : SessionId) (tgt : Target) : GdbServer :=
  {| target := tgt;
     dbg := None;
     debuggee_tguid := TaskGroupUid_default;
     last_continue_tuid := TaskUid_default;
     last_query_tuid := TaskUid_default;
     stop_replaying_to_target := false;
     timeline := ReplayTimeline_make session;
     emergency_debug_session := None;
     debugger_restart_checkpoint := Checkpoint.default;
     checkpoints := ∅ |}.

(** The private constructor [GdbServer(dbg, t)] used by [emergency_debug]. *)
Definition GdbServer_emergency (conn : option GdbConnection) (t : Task) : GdbServer :=
  {| target := Target_default;
     dbg := conn;
     debuggee_tguid := task_tguid t;
     last_continue_tuid := task_tuid t;
     last_query_tuid := task_tuid t;
     stop_replaying_to_target := false;
     timeline := ReplayTimeline_default;
     emergency_debug_session := Some (task_session t);
     debugger_restart_checkpoint := Checkpoint.default;
     checkpoints := ∅ |}.

(** [current_session()]:
    [timeline.is_running() ? timeline.current_session() : *emergency_debug_session].
    [None] stands for dereferencing a null [emergency_debug_session]. *)
Definition current_session (s : GdbServer) : option SessionId :=
  if is_running (timeline s) then tl_current_session (timeline s)
  else emergency_debug_session s.

(** [interrupt_replay_to_target() { stop_replaying_to_target = true; }] *)
Definition interrupt_replay_to_target (s : GdbServer) : GdbServer :=
  {| target := target s;
     dbg := dbg s;
     debuggee_tguid := debuggee_tguid s;
     last_continue_tuid := last_continue_tuid s;
     last_query_tuid := last_query_tuid s;
     stop_replaying_to_target := true;
     timeline := timeline s;
     emergency_debug_session := emergency_debug_session s;
     debugger_restart_checkpoint := debugger_restart_checkpoint s;
     checkpoints := checkpoints s |}.

Definition set_checkpoints (s : GdbServer) (m : gmap Z Checkpoint.t) : GdbServer :=
  {| target := target s;
     dbg := dbg s;
     debuggee_tguid := debuggee_tguid s;
     last_continue_tuid := last_continue_tuid s;
     last_query_tuid := last_query_tuid s;
     stop_replaying_to_target := stop_replaying_to_target s;
     timeline := timeline s;
     emergency_debug_session := emergency_debug_session s;
     debugger_restart_checkpoint := debugger_restart_checkpoint s;
     checkpoints := m |}.

(* ------------------------------------------------------------------ *)
(** ** Checkpoint store *)

(** Modelled from the spec: [get_checkpoint] (body in GdbServer.cc),
    after its doc comment "Return the checkpoint stored as |checkpoint_id|
    or nullptr if there isn't one"; [None] is nullptr. *)
Definition get_checkpoint (s : GdbServer) (checkpoint_id : Z) : option Checkpoint.t :=
  checkpoints s !! checkpoint_id.

(** Modelled from the spec: [delete_checkpoint] (body in GdbServer.cc),
    after its doc comment "Delete the checkpoint stored as |checkpoint_id|
    if it exists, or do nothing if it doesn't exist". *)
Definition delete_checkpoint (s : GdbServer) (checkpoint_id : Z) : GdbServer :=
  match checkpoints s !! checkpoint_id with
  | Some _ => set_checkpoints s (delete checkpoint_id (checkpoints s))
  | None => s
  end.

(** Modelled from the spec: checkpoint creation (4.5 "Create"): pin the
    current mark and store [{mark, last_continue_tuid}] under the id,
    replacing any previous entry. *)
Definition create_checkpoint (s : GdbServer) (checkpoint_id : Z) : GdbServer :=
  set_checkpoints s
    (<[checkpoint_id := Checkpoint.mk (timeline_mark (timeline s)) (last_continue_tuid s)]>
       (checkpoints s)).

(** Modelled from the spec: [activate_debugger] (4.3 ATTACH): the
    connection is established once ("dbg is initially null. Once the
    debugger connection is established, it never changes") and, on
    success, the current position is snapshotted as the restart anchor. *)
Definition activate_debugger (s : GdbServer) (conn : GdbConnection) : GdbServer :=
  match dbg s with
  | Some _ => s
  | None =>
    {| target := target s;
       dbg := Some conn;
       debuggee_tguid := debuggee_tguid s;
       last_continue_tuid := last_continue_tuid s;
       last_query_tuid := last_query_tuid s;
       stop_replaying_to_target := stop_replaying_to_target s;
       timeline := timeline s;
       emergency_debug_session := emergency_debug_session s;
       debugger_restart_checkpoint :=
         Checkpoint.mk (timeline_mark (timeline s)) (last_continue_tuid s);
       checkpoints := checkpoints s |}
  end.

(** Server operations touching the checkpoint machinery. *)
Inductive ServerOp :=
  | OpAttach (conn : GdbConnection)
  | OpCreateCheckpoint (checkpoint_id : Z)
  | OpDeleteCheckpoint (checkpoint_id : Z).

Definition apply_op (s : GdbServer) (op : ServerOp) : GdbServer :=
  match op with
  | OpAttach conn => activate_debugger s conn
  | OpCreateCheckpoint id => create_checkpoint s id
  | OpDeleteCheckpoint id => delete_checkpoint s id
  end.

Definition run_ops (s : GdbServer) (ops : list ServerOp) : GdbServer :=
  fold_left apply_op ops s.

(* ------------------------------------------------------------------ *)
(** ** Attachment: the [Target] predicate and REPLAY_TO_TARGET *)

(** What [at_target] inspects at a replay position: the current event
    count, the task group of the current task and whether its address
    space has exec'd. *)
Record ReplayPoint := mkReplayPoint {
  rp_event : FrameTime;
  rp_tgid : pid_t;
  rp_execed : bool
}.

(** Modelled from the spec: [at_target] (body in GdbServer.cc), the Target
    predicate of 4.3: process match ([pid] 0 matches any process),
    exec-seen if required, event >= target event. *)
Definition at_target (s : GdbServer) (cur : ReplayPoint) : bool :=
  let tgt := target s in
  (Z.eqb (pid tgt) 0 || Z.eqb (rp_tgid cur) (pid tgt)) &&
  (negb (require_exec tgt) || rp_execed cur) &&
  Z.leb (event tgt) (rp_event cur).

Inductive ReplayOutcome :=
  | ReachedTarget (s : GdbServer) (boundary : nat)
  | TraceEnded (s : GdbServer).

(** Modelled from the spec: the REPLAY_TO_TARGET phase of [serve_replay]:
    the timeline advances one step at a time and, at every step boundary,
    checks the Target predicate and the interrupt flag; end of trace
    before the target is EXITED.  The asynchronous interrupt is an
    environment schedule [irq]: [irq k] says that
    [interrupt_replay_to_target] ran just before the poll at boundary [k]. *)
Fixpoint replay_to_target (irq : nat -> bool) (k : nat) (s : GdbServer)
    (cur : ReplayPoint) (rest : list ReplayPoint) : ReplayOutcome :=
  let s := if irq k then interrupt_replay_to_target s else s in
  if stop_replaying_to_target s || at_target s cur then ReachedTarget s k
  else match rest with
       | [] => TraceEnded s
       | next :: rest' => replay_to_target irq (S k) s next rest'
       end.

(* ------------------------------------------------------------------ *)
(** ** Debugger requests and replies *)

Inductive RunDirection := RUN_FORWARD | RUN_BACKWARD.
Inductive GdbActionType := ACTION_CONTINUE | ACTION_STEP.

Definition Registers := list Z.

Inductive GdbRequest :=
  | DREQ_GET_REGS
  | DREQ_SET_REG (regno : nat) (value : Z)
  | DREQ_GET_MEM (addr : Z) (len : nat)
  | DREQ_SET_MEM (addr : Z) (data : list Z)
  | DREQ_CONT (dir : RunDirection) (action : GdbActionType)
  | DREQ_NEST_DIVERSION
  | DREQ_END_NESTED_DIVERSION
  | DREQ_RESTART
  | DREQ_DETACH
  | DREQ_OTHER (kind : nat).

Definition is_resume_request (req : GdbRequest) : bool :=
  match req with DREQ_CONT _ _ => true | _ => false end.

Definition is_reverse_singlestep (req : GdbRequest) : bool :=
  match req with DREQ_CONT RUN_BACKWARD ACTION_STEP => true | _ => false end.

Definition is_get_regs (req : GdbRequest) : bool :=
  match req with DREQ_GET_REGS => true | _ => false end.

(** Replies sent to the debugger: a stop notification for thread [tid]
    (with [singlestep_complete] from the [BreakStatus]), register
    contents, memory contents. *)
Inductive GdbReply :=
  | ReplyStop (tid : pid_t) (singlestep_complete : bool)
  | ReplyRegs (regs : Registers)
  | ReplyMem (data : list Z).

(* ------------------------------------------------------------------ *)
(** ** Reverse-step optimizer *)

(** An entry of [ReplayTimeline]'s mark database: the position it names
    and the architectural state cached with it. *)
Record MarkEntry := mkMarkEntry { me_pos : nat; me_regs : Registers }.

(** Modelled from the spec: [ReplayTimeline::lazy_reverse_singlestep]'s
    lookup, "the timeline has a mark immediately preceding the current
    position". *)
Definition mark_before (marks : list MarkEntry) (pos : nat) : option MarkEntry :=
  match pos with
  | 0 => None
  | S p => List.find (fun m => Nat.eqb (me_pos m) p) marks
  end.

(** The outcome of [try_lazy_reverse_singlesteps]: the request left in
    [req] ([None] when the connection ran out of requests), the requests
    not yet read, the logical position reached and the replies sent. *)
Record LazyResult := mkLazyResult {
  lr_req : option GdbRequest;
  lr_rest : list GdbRequest;
  lr_pos : nat;
  lr_replies : list GdbReply
}.

Definition prepend_replies (out : list GdbReply) (r : LazyResult) : LazyResult :=
  mkLazyResult (lr_req r) (lr_rest r) (lr_pos r) (out ++ lr_replies r).

(** Modelled from the spec: the loop of [try_lazy_reverse_singlesteps]
    (body in GdbServer.cc), after its doc comment in the header: "If 'req'
    is a reverse-singlestep, try to obtain the resulting state directly
    from ReplayTimeline's mark database. If that succeeds, report the
    singlestep break status to gdb and process any get-registers requests.
    Repeat until we get a request that isn't reverse-singlestep or
    get-registers, returning that request in 'req'."  [now] is the mark
    reached by the last lazy step (the state get-registers is answered
    from), [pos] the logical position, [t] the current task's thread. *)
Fixpoint lazy_reverse_loop (t : pid_t) (marks : list MarkEntry)
    (now : option MarkEntry) (pos : nat) (req : GdbRequest)
    (rest : list GdbRequest) {struct rest} : LazyResult :=
  let next now' pos' out :=
    match rest with
    | [] => mkLazyResult None [] pos' out
    | req' :: rest' => prepend_replies out (lazy_reverse_loop t marks now' pos' req' rest')
    end in
  if is_reverse_singlestep req then
    match mark_before marks pos with
    | Some previous => next (Some previous) (me_pos previous) [ReplyStop t true]
    | None => mkLazyResult (Some req) rest pos []
    end
  else if is_get_regs req then
    match now with
    | Some m => next now pos [ReplyRegs (me_regs m)]
    | None => mkLazyResult (Some req) rest pos []
    end
  else mkLazyResult (Some req) rest pos [].

Definition try_lazy_reverse_singlesteps (t : pid_t) (marks : list MarkEntry)
    (pos : nat) (req : GdbRequest) (rest : list GdbRequest) : LazyResult :=
  lazy_reverse_loop t marks None pos req rest.

(** Brute-force servicing of the same requests by genuine reverse
    execution: [state_at p] is the register file the deterministic replay
    has at position [p]; a reverse single-step of [t] moves one position
    back and reports a completed single-step of [t]; get-registers reads
    the registers at the current position. *)
Fixpoint brute_force (state_at : nat -> Registers) (t : pid_t) (pos : nat)
    (reqs : list GdbRequest) : nat * list GdbReply :=
  match reqs with
  | [] => (pos, [])
  | req :: reqs' =>
    let '(pos', out) :=
      if is_reverse_singlestep req then (pred pos, [ReplyStop t true])
      else if is_get_regs req then (pos, [ReplyRegs (state_at pos)])
      else (pos, []) in
    let '(pos'', out') := brute_force state_at t pos' reqs' in
    (pos'', out ++ out')
  end.

(** The mark database caches, with every mark, the state the replay has at
    that mark's position (spec 3, "Mark ... carrying cached architectural
    state"). *)
Definition marks_consistent (state_at : nat -> Registers) (marks : list MarkEntry) : Prop :=
  Forall (fun m => me_regs m = state_at (me_pos m)) marks.

(* ------------------------------------------------------------------ *)
(** ** Sessions and the diversion controller *)

(** The part of a session's state a debugger can write and read back:
    memory (address to byte) and registers. *)
Record SessionState := mkSessionState {
  ss_mem : gmap Z Z;
  ss_regs : gmap nat Z
}.

Definition write_mem (ss : SessionState) (addr : Z) (data : list Z) : SessionState :=
  mkSessionState
    (foldr (fun '(i, b) m => <[(addr + Z.of_nat i)%Z := b]> m) (ss_mem ss)
       (imap pair data))
    (ss_regs ss).

Definition write_reg (ss : SessionState) (regno : nat) (v : Z) : SessionState :=
  mkSessionState (ss_mem ss) (<[regno := v]> (ss_regs ss)).

(** All live sessions, by identifier: the replay sessions of the timeline,
    live sessions and diversion sessions. *)
Definition SessionStore := gmap SessionId SessionState.

(** Modelled from the spec: [dispatch_debugger_request] (4.1) for the
    requests that act on the session: writes go to [session], the one the
    request is resolved against; reads leave the store as it is. *)
Definition dispatch_debugger_request (st : gmap SessionId SessionState)
    (session : SessionId) (req : GdbRequest) : gmap SessionId SessionState :=
  match st !! session with
  | None => st
  | Some ss =>
    match req with
    | DREQ_SET_MEM addr data => <[session := write_mem ss addr data]> st
    | DREQ_SET_REG regno v => <[session := write_reg ss regno v]> st
    | _ => st
    end
  end.

Record DiverterResult := mkDiverterResult {
  dr_continue : bool;
  dr_refcount : nat;
  dr_req : option GdbRequest;
  dr_rest : list GdbRequest;
  dr_store : gmap SessionId SessionState;
  dr_log : list SessionId
}.

(** Modelled from the spec: [diverter_process_debugger_requests] (body in
    GdbServer.cc), after its doc comment ("Process debugger requests made
    in |diversion_session| until action needs to be taken by the caller (a
    resume-execution request is received) ... Returns true if diversion
    should continue, false if it should end") and 4.6: nested diversion
    requests move the refcount, restart and detach end the diversion, a
    resume request is handed back and the diversion continues while the
    refcount is non-zero; every other request is dispatched against the
    diversion session.  [log] records the session each dispatched request
    was resolved against. *)
Fixpoint diverter_process_debugger_requests (st : gmap SessionId SessionState)
    (diversion_session : SessionId) (diversion_refcount : nat)
    (reqs : list GdbRequest) (log : list SessionId) : DiverterResult :=
  match reqs with
  | [] => mkDiverterResult false diversion_refcount None [] st log
  | req :: rest =>
    if is_resume_request req then
      mkDiverterResult (negb (Nat.eqb diversion_refcount 0)) diversion_refcount
        (Some req) rest st log
    else match req with
    | DREQ_RESTART | DREQ_DETACH => mkDiverterResult false 0 (Some req) rest st log
    | DREQ_NEST_DIVERSION =>
      diverter_process_debugger_requests st diversion_session
        (S diversion_refcount) rest log
    | DREQ_END_NESTED_DIVERSION =>
      diverter_process_debugger_requests st diversion_session
        (pred diversion_refcount) rest log
    | _ =>
      diverter_process_debugger_requests
        (dispatch_debugger_request st diversion_session req)
        diversion_session diversion_refcount rest (log ++ [diversion_session])
    end
  end.

Record DivertResult := mkDivertResult {
  dv_req : option GdbRequest;
  dv_rest : list GdbRequest;
  dv_store : gmap SessionId SessionState;
  dv_log : list SessionId
}.

(** The loop of [divert]: a resume request that does not end the diversion
    is executed in the diversion session by the engine ([diversion_step]).
    Each round reads at least one request, so [fuel] = number of requests
    plus one is never exhausted. *)
Fixpoint divert_loop (diversion_step : SessionState -> GdbRequest -> SessionState)
    (fuel : nat) (st : gmap SessionId SessionState) (diversion_session : SessionId)
    (diversion_refcount : nat) (reqs : list GdbRequest) (log : list SessionId)
    : DivertResult :=
  match fuel with
  | 0 => mkDivertResult None reqs st log
  | S fuel' =>
    let r := diverter_process_debugger_requests st diversion_session
               diversion_refcount reqs log in
    match dr_continue r, dr_req r with
    | true, Some req =>
      let st' := match dr_store r !! diversion_session with
                 | Some ds => <[diversion_session := diversion_step ds req]> (dr_store r)
                 | None => dr_store r
                 end in
      divert_loop diversion_step fuel' st' diversion_session (dr_refcount r)
        (dr_rest r) (dr_log r)
    | _, _ => mkDivertResult (dr_req r) (dr_rest r) (dr_store r) (dr_log r)
    end
  end.

(** Modelled from the spec: [divert(replay)] (body in GdbServer.cc), after
    its doc comment and 4.6: fork a diversion session from the replay
    session ([clone_diversion], an engine operation, yields its initial
    state) under a fresh identity, service requests in it with refcount 1,
    then discard it and return the first request it did not handle. *)
Definition divert (clone_diversion : SessionState -> SessionState)
    (diversion_step : SessionState -> GdbRequest -> SessionState)
    (st : gmap SessionId SessionState) (replay : SessionId)
    (reqs : list GdbRequest) : DivertResult :=
  match st !! replay with
  | None => mkDivertResult None reqs st []
  | Some rs =>
    let d : SessionId := fresh (dom st) in
    let r := divert_loop diversion_step (S (length reqs))
               (<[d := clone_diversion rs]> st) d 1 reqs [] in
    mkDivertResult (dv_req r) (dv_rest r) (delete d (dv_store r)) (dv_log r)
  end.


Definition ex_store : gmap SessionId SessionState :=
  {[ 0 := mkSessionState ∅ ∅ ]}.

Definition ex_checkpoint : Checkpoint.t := Checkpoint.mk (Some 3) TaskUid_default.

Definition ex_server : GdbServer :=
  set_checkpoints (GdbServer_replay 0 Target_default)
    (<[1%Z := ex_checkpoint]> (<[2%Z := ex_checkpoint]> ∅)).

Definition ex_trace : list ReplayPoint :=
  map (fun e => mkReplayPoint e 1%Z true) [11; 12; 13; 14; 15; 16]%Z.

(** The requests still to be handled after the optimizer: the one left in
    [req] followed by the unread ones. *)
Definition lazy_remaining (r : LazyResult) : list GdbRequest :=
  match lr_req r with Some q => q :: lr_rest r | None => lr_rest r end.

Definition lazy_serviceable (q : GdbRequest) : bool :=
  is_reverse_singlestep q || is_get_regs q.

(** A replay whose registers at position [p] are [[p * 11]], with marks at
    positions 4 and 3 caching those registers. *)
Definition ex_state_at (p : nat) : Registers := [(Z.of_nat p * 11)%Z].

Definition ex_marks : list MarkEntry := [mkMarkEntry 4 [44%Z]; mkMarkEntry 3 [33%Z]].

(** Diversion controller: every write of a diversion lands in the
    diversion session and nowhere else. *)

Definition writes_only_at (d : SessionId) (st0 st : gmap SessionId SessionState) : Prop :=
  exists x, st = <[d := x]> st0.


Example divert_example :
  divert (fun ss => ss) (fun ss _ => ss) ex_store 0
    [DREQ_SET_MEM 16%Z [1%Z; 2%Z]; DREQ_GET_REGS; DREQ_CONT RUN_FORWARD ACTION_STEP;
     DREQ_END_NESTED_DIVERSION; DREQ_CONT RUN_FORWARD ACTION_CONTINUE]
  = mkDivertResult (Some (DREQ_CONT RUN_FORWARD ACTION_CONTINUE)) [] ex_store [1; 1].
Proof. vm_compute. reflexivity. Qed.

Example lazy_example :
  try_lazy_reverse_singlesteps 7%Z [mkMarkEntry 4 [44%Z]; mkMarkEntry 3 [33%Z]] 5
    (DREQ_CONT RUN_BACKWARD ACTION_STEP)
    [DREQ_GET_REGS; DREQ_CONT RUN_BACKWARD ACTION_STEP; DREQ_GET_REGS;
     DREQ_CONT RUN_BACKWARD ACTION_STEP; DREQ_OTHER 0]
  = mkLazyResult (Some (DREQ_CONT RUN_BACKWARD ACTION_STEP)) [DREQ_OTHER 0] 3
      [ReplyStop 7%Z true; ReplyRegs [44%Z]; ReplyStop 7%Z true; ReplyRegs [33%Z]].
Proof. reflexivity. Qed.

(* ================================================================== *)
(** * Properties *)

(** Helper facts about the checkpoint operations. *)

Lemma set_checkpoints_anchor s m :
  debugger_restart_checkpoint (set_checkpoints s m) = debugger_restart_checkpoint s.
Proof. reflexivity. Qed.

Lemma set_checkpoints_dbg s m : dbg (set_checkpoints s m) = dbg s.
Proof. reflexivity. Qed.

Lemma apply_op_attached s op :
  is_Some (dbg s) ->
  dbg (apply_op s op) = dbg s /\
  debugger_restart_checkpoint (apply_op s op) = debugger_restart_checkpoint s.
Proof.
  intros [c Hc]. destruct op as [conn | id | id]; simpl.
  - unfold activate_debugger. rewrite Hc. auto.
  - auto.
  - unfold delete_checkpoint. destruct (checkpoints s !! id); auto.
Qed.

Lemma run_ops_attached s ops :
  is_Some (dbg s) ->
  dbg (run_ops s ops) = dbg s /\
  debugger_restart_checkpoint (run_ops s ops) = debugger_restart_checkpoint s.
Proof.
  unfold run_ops. revert s. induction ops as [| op ops IH]; intros s Hs; simpl.
  - auto.
  - destruct (apply_op_attached s op Hs) as [Hd Ha].
    assert (Hs' : is_Some (dbg (apply_op s op))) by (rewrite Hd; exact Hs).
    destruct (IH _ Hs') as [Hd' Ha']. rewrite Hd', Ha'. auto.
Qed.

(** Claim C3 (checkpoint store map semantics): [get_checkpoint id] gives
    the stored checkpoint when [id] is in the store and nullptr ([None])
    when it is not; [delete_checkpoint id] removes a present entry and
    leaves the server unchanged when [id] is absent; deleting [a] never
    changes [get_checkpoint b] for [b <> a]. *)
Theorem checkpoint_store_semantics :
  (forall (s : GdbServer) (id : Z) (cp : Checkpoint.t),
      checkpoints s !! id = Some cp -> get_checkpoint s id = Some cp) /\
  (forall (s : GdbServer) (id : Z),
      checkpoints s !! id = None -> get_checkpoint s id = None) /\
  (forall (s : GdbServer) (id : Z),
      is_Some (checkpoints s !! id) ->
      checkpoints (delete_checkpoint s id) = delete id (checkpoints s) /\
      get_checkpoint (delete_checkpoint s id) id = None) /\
  (forall (s : GdbServer) (id : Z),
      checkpoints s !! id = None -> delete_checkpoint s id = s) /\
  (forall (s : GdbServer) (a b : Z),
      a <> b -> get_checkpoint (delete_checkpoint s a) b = get_checkpoint s b).
Proof.
  unfold get_checkpoint, delete_checkpoint.
  split; [| split; [| split; [| split]]].
  - intros s id cp H. exact H.
  - intros s id H. exact H.
  - intros s id [cp Hcp]. rewrite Hcp. simpl. split; [reflexivity |].
    apply lookup_delete_eq.
  - intros s id H. rewrite H. reflexivity.
  - intros s a b Hab. destruct (checkpoints s !! a); simpl; [| reflexivity].
    apply lookup_delete_ne. exact Hab.
Qed.

Lemma checkpoint_store_semantics_witness :
  get_checkpoint ex_server 1%Z = Some ex_checkpoint /\
  get_checkpoint ex_server 5%Z = None /\
  get_checkpoint (delete_checkpoint ex_server 1%Z) 1%Z = None /\
  delete_checkpoint ex_server 5%Z = ex_server /\
  get_checkpoint (delete_checkpoint ex_server 1%Z) 2%Z = get_checkpoint ex_server 2%Z.
Proof.
  destruct checkpoint_store_semantics as (H1 & H2 & H3 & H4 & H5).
  split; [| split; [| split; [| split]]].
  - apply H1. reflexivity.
  - apply H2. reflexivity.
  - apply (H3 ex_server 1%Z). exists ex_checkpoint. reflexivity.
  - apply H4. reflexivity.
  - apply H5. discriminate.
Defined.

(** Claim C4 (restart anchor): a freshly constructed server has no anchor
    (null mark); the first successful attach sets it to the current
    position; afterwards no sequence of attach, checkpoint-create or
    checkpoint-delete operations changes it, and it stays set. *)
Theorem restart_anchor_set_once (session : SessionId) (tgt : Target)
    (s : GdbServer) (conn : GdbConnection) (ops : list ServerOp) :
  debugger_restart_checkpoint (GdbServer_replay session tgt) = Checkpoint.default /\
  (dbg s = None ->
   debugger_restart_checkpoint (activate_debugger s conn) =
     Checkpoint.mk (timeline_mark (timeline s)) (last_continue_tuid s) /\
   debugger_restart_checkpoint (run_ops (activate_debugger s conn) ops) =
     debugger_restart_checkpoint (activate_debugger s conn) /\
   Checkpoint.mark (debugger_restart_checkpoint (run_ops (activate_debugger s conn) ops))
     <> None).
Proof.
  split; [reflexivity |]. intros Hnone.
  assert (Ha : debugger_restart_checkpoint (activate_debugger s conn) =
               Checkpoint.mk (timeline_mark (timeline s)) (last_continue_tuid s)).
  { unfold activate_debugger. rewrite Hnone. reflexivity. }
  assert (Hd : is_Some (dbg (activate_debugger s conn))).
  { unfold activate_debugger. rewrite Hnone. simpl. eexists; reflexivity. }
  destruct (run_ops_attached _ ops Hd) as [_ Hr].
  split; [exact Ha | split; [exact Hr |]].
  rewrite Hr, Ha. simpl. unfold timeline_mark. discriminate.
Qed.

Lemma restart_anchor_set_once_witness :
  debugger_restart_checkpoint (run_ops (activate_debugger (GdbServer_replay 0 Target_default) 9)
     [OpCreateCheckpoint 0%Z; OpDeleteCheckpoint 0%Z; OpAttach 10; OpDeleteCheckpoint 4%Z])
  = debugger_restart_checkpoint (activate_debugger (GdbServer_replay 0 Target_default) 9).
Proof.
  destruct (restart_anchor_set_once 0 Target_default (GdbServer_replay 0 Target_default) 9
              [OpCreateCheckpoint 0%Z; OpDeleteCheckpoint 0%Z; OpAttach 10;
               OpDeleteCheckpoint 4%Z]) as [_ H].
  apply H. reflexivity.
Defined.

(** Claim C5 (Target predicate): with target [{pid=0, require_exec=false,
    event=E}], [at_target] holds exactly when the current event count is
    at least [E], whatever the current process; with [{pid=P,
    require_exec=true, event=E}] ([P] a real process id) it holds exactly
    when the current process is [P], it has exec'd and the event count is
    at least [E]. *)
Theorem at_target_semantics :
  (forall (s : GdbServer) (cur : ReplayPoint) (E : FrameTime),
      target s = mkTarget 0%Z false E ->
      at_target s cur = Z.leb E (rp_event cur)) /\
  (forall (s : GdbServer) (cur : ReplayPoint) (P E : Z),
      target s = mkTarget P true E -> P <> 0%Z ->
      (at_target s cur = true <->
       rp_tgid cur = P /\ rp_execed cur = true /\ (E <= rp_event cur)%Z)).
Proof.
  unfold at_target. split.
  - intros s cur E Ht. rewrite Ht. simpl. reflexivity.
  - intros s cur P E Ht HP. rewrite Ht. simpl.
    destruct (Z.eqb_spec P 0) as [HP0 | _]; [contradiction |]. simpl.
    rewrite !andb_true_iff, Z.eqb_eq, Z.leb_le.
    destruct (rp_execed cur); simpl; split; intros H; intuition congruence.
Qed.

Lemma at_target_semantics_witness :
  at_target (GdbServer_replay 0 (mkTarget 0%Z false 5%Z)) (mkReplayPoint 7%Z 42%Z false)
    = Z.leb 5 7 /\
  (at_target (GdbServer_replay 0 (mkTarget 42%Z true 5%Z)) (mkReplayPoint 7%Z 42%Z false)
     = true <-> (42 = 42 /\ false = true /\ 5 <= 7)%Z).
Proof.
  destruct at_target_semantics as [H1 H2]. split.
  - apply H1. reflexivity.
  - apply (H2 _ (mkReplayPoint 7%Z 42%Z false) 42%Z 5%Z); [reflexivity | discriminate].
Defined.

(** Polling: once the interrupt has run at some step boundary, the
    replay-to-target loop stops at that boundary at the latest. *)
Lemma replay_to_target_polls (irq : nat -> bool) (k : nat) :
  irq k = true ->
  forall rest k0 (s : GdbServer) (cur : ReplayPoint),
    k0 <= k <= k0 + length rest ->
    exists s' j, replay_to_target irq k0 s cur rest = ReachedTarget s' j /\ j <= k.
Proof.
  intros Hirq rest. induction rest as [| next rest IH]; intros k0 s cur Hk; simpl.
  - assert (k0 = k) by (simpl in Hk; lia). subst k0. rewrite Hirq. simpl.
    eauto.
  - destruct (Nat.eq_dec k0 k) as [-> | Hne].
    + rewrite Hirq. simpl. eauto.
    + destruct (stop_replaying_to_target _ || at_target _ cur).
      * exists (if irq k0 then interrupt_replay_to_target s else s), k0. split; [reflexivity | lia].
      * apply IH. simpl in Hk. lia.
Qed.

(** Claim C7 (interrupt setter): [interrupt_replay_to_target] sets
    [stop_replaying_to_target] and leaves every other field of the server
    as it was; the flag is polled at every step boundary of
    REPLAY_TO_TARGET, so replay stops at the boundary where the interrupt
    is seen at the latest. *)
Theorem interrupt_replay_to_target_effect (s : GdbServer) :
  stop_replaying_to_target (interrupt_replay_to_target s) = true /\
  target (interrupt_replay_to_target s) = target s /\
  dbg (interrupt_replay_to_target s) = dbg s /\
  debuggee_tguid (interrupt_replay_to_target s) = debuggee_tguid s /\
  last_continue_tuid (interrupt_replay_to_target s) = last_continue_tuid s /\
  last_query_tuid (interrupt_replay_to_target s) = last_query_tuid s /\
  timeline (interrupt_replay_to_target s) = timeline s /\
  emergency_debug_session (interrupt_replay_to_target s) = emergency_debug_session s /\
  debugger_restart_checkpoint (interrupt_replay_to_target s) = debugger_restart_checkpoint s /\
  checkpoints (interrupt_replay_to_target s) = checkpoints s /\
  (forall (irq : nat -> bool) (k : nat) (cur : ReplayPoint) (rest : list ReplayPoint),
      irq k = true -> k <= length rest ->
      exists s' j, replay_to_target irq 0 s cur rest = ReachedTarget s' j /\ j <= k).
Proof.
  repeat split.
  intros irq k cur rest Hirq Hk. apply replay_to_target_polls; [exact Hirq | lia].
Qed.

Lemma interrupt_replay_to_target_effect_witness :
  exists s' j,
    replay_to_target (fun k => Nat.eqb k 2) 0
      (GdbServer_replay 0 (mkTarget 0%Z false 100%Z)) (mkReplayPoint 10%Z 1%Z true) ex_trace
    = ReachedTarget s' j /\ j <= 2.
Proof.
  destruct (interrupt_replay_to_target_effect (GdbServer_replay 0 (mkTarget 0%Z false 100%Z)))
    as (_ & _ & _ & _ & _ & _ & _ & _ & _ & _ & H).
  apply H; [reflexivity | simpl; lia].
Defined.

(** Claim C9 (emergency constructor): [GdbServer(dbg, t)] records [t]'s
    task group as the debuggee, [t] as the last continued and last queried
    thread, a cleared interrupt flag and [t]'s session as the emergency
    session, which [current_session()] then resolves to. *)
Theorem emergency_constructor_init (conn : option GdbConnection) (t : Task) :
  debuggee_tguid (GdbServer_emergency conn t) = task_tguid t /\
  last_continue_tuid (GdbServer_emergency conn t) = task_tuid t /\
  last_query_tuid (GdbServer_emergency conn t) = task_tuid t /\
  stop_replaying_to_target (GdbServer_emergency conn t) = false /\
  emergency_debug_session (GdbServer_emergency conn t) = Some (task_session t) /\
  current_session (GdbServer_emergency conn t) = Some (task_session t).
Proof. repeat split. Qed.

(** Claim C10 (ConnectionFlags defaults): a default [ConnectionFlags] has
    [dbg_port = -1], so the server picks the port, and a null
    [debugger_params_write_pipe], so no parameter handoff happens. *)
Theorem ConnectionFlags_default_values :
  dbg_port ConnectionFlags_default = (-1)%Z /\
  debugger_params_write_pipe ConnectionFlags_default = None /\
  port_choice ConnectionFlags_default = ServerChoosesPort /\
  params_handoff ConnectionFlags_default = None.
Proof. repeat split. Qed.

(** Reverse-step optimizer: helper facts. *)

Lemma mark_before_spec (marks : list MarkEntry) (pos : nat) (m : MarkEntry) :
  mark_before marks pos = Some m -> pos = S (me_pos m) /\ In m marks.
Proof.
  destruct pos as [| p]; simpl; [discriminate |]. intros Hf.
  destruct (find_some _ _ Hf) as [Hin Heq]. apply Nat.eqb_eq in Heq. auto.
Qed.

Lemma reverse_singlestep_not_get_regs (req : GdbRequest) :
  is_reverse_singlestep req = true -> is_get_regs req = false.
Proof. destruct req; simpl; congruence. Qed.

Lemma lazy_reverse_loop_refines (state_at : nat -> Registers) (marks : list MarkEntry)
    (t : pid_t) :
  marks_consistent state_at marks ->
  forall (rest : list GdbRequest) (now : option MarkEntry) (pos : nat) (req : GdbRequest),
  match now with Some m => me_pos m = pos /\ me_regs m = state_at pos | None => True end ->
  exists served,
    req :: rest = served ++ lazy_remaining (lazy_reverse_loop t marks now pos req rest) /\
    brute_force state_at t pos served =
      (lr_pos (lazy_reverse_loop t marks now pos req rest),
       lr_replies (lazy_reverse_loop t marks now pos req rest)) /\
    Forall (fun q => lazy_serviceable q = true) served /\
    (forall q, lr_req (lazy_reverse_loop t marks now pos req rest) = Some q ->
       (is_reverse_singlestep q = true ->
          mark_before marks (lr_pos (lazy_reverse_loop t marks now pos req rest)) = None) /\
       (is_get_regs q = true -> served = [] /\ now = None)).
Proof.
  intros Hcons rest. induction rest as [| req' rest' IH]; intros now pos req Hnow.
  all: simpl; unfold lazy_remaining.
  all: destruct (is_reverse_singlestep req) eqn:Hrs;
       [pose proof (reverse_singlestep_not_get_regs _ Hrs) as Hgr
       | destruct (is_get_regs req) eqn:Hgr].
  (* end of input: a reverse single-step with a preceding mark *)
  - destruct (mark_before marks pos) as [prev |] eqn:Hmb.
    + destruct (mark_before_spec _ _ _ Hmb) as [Hpos _].
      exists [req]. simpl. rewrite Hrs. subst pos. simpl.
      refine (conj eq_refl (conj eq_refl (conj _ _))); [| discriminate].
      constructor; [unfold lazy_serviceable; rewrite Hrs; reflexivity | constructor].
    + exists []. simpl. refine (conj eq_refl (conj eq_refl (conj (List.Forall_nil _) _))).
      intros q Hq; injection Hq as <-; split; intros; try split; congruence.
  - destruct now as [m |].
    + destruct Hnow as [Hmpos Hmregs]. exists [req]. simpl. rewrite Hrs, Hgr. simpl.
      rewrite Hmregs. refine (conj eq_refl (conj eq_refl (conj _ _))); [| discriminate].
      constructor; [unfold lazy_serviceable; rewrite Hgr, orb_true_r; reflexivity | constructor].
    + exists []. simpl. refine (conj eq_refl (conj eq_refl (conj (List.Forall_nil _) _))).
      intros q Hq; injection Hq as <-; split; intros; try split; congruence.
  - exists []. simpl. refine (conj eq_refl (conj eq_refl (conj (List.Forall_nil _) _))).
      intros q Hq; injection Hq as <-; split; intros; try split; congruence.
  (* a further request follows *)
  - destruct (mark_before marks pos) as [prev |] eqn:Hmb.
    + destruct (mark_before_spec _ _ _ Hmb) as [Hpos Hin].
      assert (Hinv : me_pos prev = me_pos prev /\ me_regs prev = state_at (me_pos prev)).
      { split; [reflexivity |]. unfold marks_consistent in Hcons.
        rewrite Forall_forall in Hcons. apply Hcons. apply list_elem_of_In. exact Hin. }
      destruct (IH (Some prev) (me_pos prev) req' Hinv) as (served & Hsplit & Hbf & Hall & Hret).
      exists (req :: served). unfold prepend_replies. simpl. split; [| split; [| split]].
      * rewrite Hsplit. reflexivity.
      * rewrite Hrs. subst pos. simpl. rewrite Hbf. reflexivity.
      * constructor; [unfold lazy_serviceable; rewrite Hrs; reflexivity | exact Hall].
      * intros q Hq. destruct (Hret q Hq) as [H1 H2]. split; [exact H1 |].
        intros Hq'. destruct (H2 Hq') as [_ Habs]. discriminate.
    + exists []. simpl. refine (conj eq_refl (conj eq_refl (conj (List.Forall_nil _) _))).
      intros q Hq; injection Hq as <-; split; intros; try split; congruence.
  - destruct now as [m |].
    + destruct Hnow as [Hmpos Hmregs].
      destruct (IH (Some m) pos req' (conj Hmpos Hmregs)) as (served & Hsplit & Hbf & Hall & Hret).
      exists (req :: served). unfold prepend_replies. simpl. split; [| split; [| split]].
      * rewrite Hsplit. reflexivity.
      * rewrite Hrs, Hgr. rewrite Hbf. simpl. rewrite Hmregs. reflexivity.
      * constructor; [unfold lazy_serviceable; rewrite Hgr, orb_true_r; reflexivity | exact Hall].
      * intros q Hq. destruct (Hret q Hq) as [H1 H2]. split; [exact H1 |].
        intros Hq'. destruct (H2 Hq') as [_ Habs]. discriminate.
    + exists []. simpl. refine (conj eq_refl (conj eq_refl (conj (List.Forall_nil _) _))).
      intros q Hq; injection Hq as <-; split; intros; try split; congruence.
  - exists []. simpl. refine (conj eq_refl (conj eq_refl (conj (List.Forall_nil _) _))).
      intros q Hq; injection Hq as <-; split; intros; try split; congruence.
Qed.

(** Claim C2, as amended (reverse-step optimizer): when every mark caches
    the state the replay has at its position, [try_lazy_reverse_singlesteps]
    consumes a prefix of the requests made only of reverse-singlestep and
    get-registers requests, and the stop notifications and register
    replies it synthesizes, and the position it ends at, are exactly those
    of brute-force reverse execution of that prefix.  The request it leaves
    in [req] is a request of another kind, a reverse-singlestep with no
    mark immediately preceding the reached position, or a get-registers
    request received before any lazy step (these are answered only after
    a serviced reverse-singlestep, from its mark).  In particular, when the
    first request is a get-registers request, a request of another kind,
    or a reverse-singlestep with no mark immediately before the current
    position, it is returned in [req] unanswered, nothing is read and the
    position is unchanged. *)
Theorem try_lazy_reverse_singlesteps_transparent (state_at : nat -> Registers)
    (marks : list MarkEntry) (t : pid_t) (pos : nat) (req : GdbRequest)
    (rest : list GdbRequest) :
  marks_consistent state_at marks ->
  ((is_get_regs req = true \/ lazy_serviceable req = false \/
    (is_reverse_singlestep req = true /\ mark_before marks pos = None)) ->
   try_lazy_reverse_singlesteps t marks pos req rest = mkLazyResult (Some req) rest pos []) /\
  exists served,
    req :: rest = served ++ lazy_remaining (try_lazy_reverse_singlesteps t marks pos req rest) /\
    brute_force state_at t pos served =
      (lr_pos (try_lazy_reverse_singlesteps t marks pos req rest),
       lr_replies (try_lazy_reverse_singlesteps t marks pos req rest)) /\
    Forall (fun q => lazy_serviceable q = true) served /\
    (forall q, lr_req (try_lazy_reverse_singlesteps t marks pos req rest) = Some q ->
       (is_reverse_singlestep q = true ->
          mark_before marks (lr_pos (try_lazy_reverse_singlesteps t marks pos req rest)) = None) /\
       (is_get_regs q = true -> served = [])).
Proof.
  intros Hcons. split.
  - intros Hlead. unfold try_lazy_reverse_singlesteps.
    assert (Hstop : lazy_reverse_loop t marks None pos req rest =
                    mkLazyResult (Some req) rest pos []).
    { destruct rest as [| r rest']; simpl;
        destruct (is_reverse_singlestep req) eqn:Hrs;
        [pose proof (reverse_singlestep_not_get_regs _ Hrs) as Hgr
        | destruct (is_get_regs req) eqn:Hgr
        | pose proof (reverse_singlestep_not_get_regs _ Hrs) as Hgr
        | destruct (is_get_regs req) eqn:Hgr];
        try reflexivity;
        unfold lazy_serviceable in Hlead; rewrite ?Hrs, ?Hgr in Hlead; simpl in Hlead;
        destruct Hlead as [Hlead | [Hlead | [_ Hmb]]]; try discriminate;
        rewrite Hmb; reflexivity. }
    exact Hstop.
  - unfold try_lazy_reverse_singlesteps.
    destruct (lazy_reverse_loop_refines state_at marks t Hcons rest None pos req I)
      as (served & Hsplit & Hbf & Hall & Hret).
    exists served. split; [exact Hsplit | split; [exact Hbf | split; [exact Hall |]]].
    intros q Hq. destruct (Hret q Hq) as [H1 H2]. split; [exact H1 |].
    intros Hg. apply H2. exact Hg.
Qed.

Lemma try_lazy_reverse_singlesteps_transparent_witness :
  try_lazy_reverse_singlesteps 7%Z ex_marks 5 DREQ_GET_REGS
    [DREQ_CONT RUN_BACKWARD ACTION_STEP; DREQ_OTHER 0]
  = mkLazyResult (Some DREQ_GET_REGS) [DREQ_CONT RUN_BACKWARD ACTION_STEP; DREQ_OTHER 0] 5 [].
Proof.
  assert (Hcons : marks_consistent ex_state_at ex_marks).
  { unfold marks_consistent, ex_marks. repeat constructor. }
  destruct (try_lazy_reverse_singlesteps_transparent ex_state_at ex_marks 7%Z 5 DREQ_GET_REGS
              [DREQ_CONT RUN_BACKWARD ACTION_STEP; DREQ_OTHER 0] Hcons) as [Hlead _].
  apply Hlead. left. reflexivity.
Defined.

(** Claim C2 as stated fails: the optimizer does not service requests
    "exactly while the pending request is a reverse-singlestep or a
    read-registers request and a mark immediately precedes the current
    position".  With a single mark at position 4 and the current position
    5: after the lazy step to 4 a read-registers request is answered from
    the mark although no mark precedes position 4; and a read-registers
    request pending first, with a mark preceding position 5, is not
    serviced but left in [req]. *)
Lemma try_lazy_reverse_singlesteps_claim_counterexample :
  mark_before [mkMarkEntry 4 [44%Z]] 4 = None /\
  try_lazy_reverse_singlesteps 7%Z [mkMarkEntry 4 [44%Z]] 5
    (DREQ_CONT RUN_BACKWARD ACTION_STEP) [DREQ_GET_REGS; DREQ_OTHER 0]
  = mkLazyResult (Some (DREQ_OTHER 0)) [] 4 [ReplyStop 7%Z true; ReplyRegs [44%Z]] /\
  mark_before [mkMarkEntry 4 [44%Z]] 5 = Some (mkMarkEntry 4 [44%Z]) /\
  try_lazy_reverse_singlesteps 7%Z [mkMarkEntry 4 [44%Z]] 5 DREQ_GET_REGS [DREQ_OTHER 0]
  = mkLazyResult (Some DREQ_GET_REGS) [DREQ_OTHER 0] 5 [].
Proof. repeat split. Qed.

Lemma dispatch_writes_only_at d st0 st req :
  writes_only_at d st0 st -> writes_only_at d st0 (dispatch_debugger_request st d req).
Proof.
  intros [x ->]. unfold dispatch_debugger_request. rewrite lookup_insert_eq.
  destruct req; try (exists x; reflexivity);
    eexists; rewrite insert_insert_eq; reflexivity.
Qed.

Lemma diverter_writes_only_at d st0 reqs :
  forall st rc log,
  writes_only_at d st0 st ->
  Forall (fun sid => sid = d) log ->
  writes_only_at d st0 (dr_store (diverter_process_debugger_requests st d rc reqs log)) /\
  Forall (fun sid => sid = d) (dr_log (diverter_process_debugger_requests st d rc reqs log)).
Proof.
  induction reqs as [| req rest IH]; intros st rc log Hst Hlog; simpl; [auto |].
  destruct (is_resume_request req); simpl; [auto |].
  destruct req; simpl; auto;
    apply IH; try apply dispatch_writes_only_at; auto;
    apply Forall_app; split; auto.
Qed.

Lemma divert_loop_writes_only_at step d st0 fuel :
  forall st rc reqs log,
  writes_only_at d st0 st ->
  Forall (fun sid => sid = d) log ->
  writes_only_at d st0 (dv_store (divert_loop step fuel st d rc reqs log)) /\
  Forall (fun sid => sid = d) (dv_log (divert_loop step fuel st d rc reqs log)).
Proof.
  induction fuel as [| fuel IH]; intros st rc reqs log Hst Hlog; simpl; [auto |].
  destruct (diverter_writes_only_at d st0 reqs st rc log Hst Hlog) as [Hst' Hlog'].
  destruct (dr_continue _), (dr_req _) as [req |]; simpl; auto.
  apply IH; [| exact Hlog'].
  destruct Hst' as [x Hx]. rewrite Hx, lookup_insert_eq.
  exists (step x req). apply insert_insert_eq.
Qed.


(** Claim C1 (diversion isolation): whatever requests the debugger makes
    inside a diversion, when [divert] returns the session store is exactly
    what it was before: the replay session passed to [divert] is not
    mutated, no other session is touched, and the diversion session with
    everything written into it is gone. *)
Theorem divert_isolation (clone_diversion : SessionState -> SessionState)
    (diversion_step : SessionState -> GdbRequest -> SessionState)
    (st : gmap SessionId SessionState) (replay : SessionId) (reqs : list GdbRequest) :
  dv_store (divert clone_diversion diversion_step st replay reqs) = st /\
  dv_store (divert clone_diversion diversion_step st replay reqs) !! replay = st !! replay.
Proof.
  assert (H : dv_store (divert clone_diversion diversion_step st replay reqs) = st).
  { unfold divert. destruct (st !! replay) as [rs |]; [| reflexivity]. cbn [dv_store].
    destruct (divert_loop_writes_only_at diversion_step (fresh (dom st)) st
                (S (length reqs)) (<[fresh (dom st) := clone_diversion rs]> st) 1 reqs []
                (ex_intro _ _ eq_refl) (List.Forall_nil _)) as [[x Hx] _].
    rewrite Hx. apply delete_insert_id. apply not_elem_of_dom_1, is_fresh. }
  split; [exact H | rewrite H; reflexivity].
Qed.





(* ================================================================== *)
(** * Further properties of the header's code *)

Lemma set_checkpoints_same (s : GdbServer) : set_checkpoints s (checkpoints s) = s.
Proof. destruct s; reflexivity. Qed.

Lemma set_checkpoints_twice (s : GdbServer) m1 m2 :
  set_checkpoints (set_checkpoints s m1) m2 = set_checkpoints s m2.
Proof. reflexivity. Qed.

(** [delete_checkpoint] always amounts to erasing the key from the map
    (erasing an absent key changes nothing). *)
Lemma delete_checkpoint_erase (s : GdbServer) (id : Z) :
  delete_checkpoint s id = set_checkpoints s (delete id (checkpoints s)).
Proof.
  unfold delete_checkpoint. destruct (checkpoints s !! id) eqn:H; [reflexivity |].
  rewrite delete_id by exact H. symmetry. apply set_checkpoints_same.
Qed.

Lemma apply_op_current_session (s : GdbServer) (op : ServerOp) :
  current_session (apply_op s op) = current_session s.
Proof.
  destruct op as [conn | id | id]; simpl.
  - unfold activate_debugger. destruct (dbg s); reflexivity.
  - reflexivity.
  - rewrite delete_checkpoint_erase. reflexivity.
Qed.

(** Extra: interrupting is idempotent, never changes which session
    requests are resolved against, and commutes with checkpoint deletion. *)
Theorem interrupt_replay_to_target_idempotent (s : GdbServer) (id : Z) :
  interrupt_replay_to_target (interrupt_replay_to_target s) = interrupt_replay_to_target s /\
  current_session (interrupt_replay_to_target s) = current_session s /\
  interrupt_replay_to_target (delete_checkpoint s id) =
    delete_checkpoint (interrupt_replay_to_target s) id.
Proof.
  split; [reflexivity | split; [reflexivity |]].
  rewrite !delete_checkpoint_erase. reflexivity.
Qed.

(** Extra: a server built by the replay constructor resolves requests
    against the replay session it was given, and no sequence of attach,
    checkpoint-create or checkpoint-delete operations changes that. *)
Theorem replay_server_current_session (session : SessionId) (tgt : Target)
    (ops : list ServerOp) :
  current_session (GdbServer_replay session tgt) = Some session /\
  current_session (run_ops (GdbServer_replay session tgt) ops) = Some session.
Proof.
  split; [reflexivity |].
  unfold run_ops.
  assert (Hgen : forall s, current_session s = Some session ->
            current_session (fold_left apply_op ops s) = Some session).
  { induction ops as [| op ops IH]; intros s Hs; simpl; [exact Hs |].
    apply IH. rewrite apply_op_current_session. exact Hs. }
  apply Hgen. reflexivity.
Qed.

(** Extra: a server built by the emergency constructor holds no
    checkpoints: [get_checkpoint] returns nullptr for every id, the restart
    checkpoint is null, and [delete_checkpoint] of any id leaves the server
    unchanged. *)
Theorem emergency_server_no_checkpoints (conn : option GdbConnection) (t : Task) (id : Z) :
  get_checkpoint (GdbServer_emergency conn t) id = None /\
  Checkpoint.mark (debugger_restart_checkpoint (GdbServer_emergency conn t)) = None /\
  delete_checkpoint (GdbServer_emergency conn t) id = GdbServer_emergency conn t.
Proof.
  split; [reflexivity | split; [reflexivity |]].
  unfold delete_checkpoint. simpl. rewrite lookup_empty. reflexivity.
Qed.

(** Extra: deleting a checkpoint twice is the same as deleting it once. *)
Theorem delete_checkpoint_idempotent (s : GdbServer) (id : Z) :
  delete_checkpoint (delete_checkpoint s id) id = delete_checkpoint s id.
Proof.
  rewrite !delete_checkpoint_erase. simpl. rewrite delete_delete_eq. reflexivity.
Qed.

(** Extra: deletions of two checkpoints can be done in either order. *)
Theorem delete_checkpoint_commute (s : GdbServer) (a b : Z) :
  delete_checkpoint (delete_checkpoint s a) b = delete_checkpoint (delete_checkpoint s b) a.
Proof.
  rewrite !delete_checkpoint_erase. simpl. rewrite delete_delete. reflexivity.
Qed.

(** Extra: [delete_checkpoint] only shrinks the checkpoint map: the ids
    left are the old ones minus the deleted id, and the target, the
    connection, the interrupt flag, the restart checkpoint and the session
    requests are resolved against stay as they were. *)
Theorem delete_checkpoint_frame (s : GdbServer) (id : Z) :
  dom (checkpoints (delete_checkpoint s id)) = dom (checkpoints s) ∖ {[id]} /\
  target (delete_checkpoint s id) = target s /\
  dbg (delete_checkpoint s id) = dbg s /\
  stop_replaying_to_target (delete_checkpoint s id) = stop_replaying_to_target s /\
  debugger_restart_checkpoint (delete_checkpoint s id) = debugger_restart_checkpoint s /\
  current_session (delete_checkpoint s id) = current_session s.
Proof.
  rewrite delete_checkpoint_erase. simpl.
  split; [apply dom_delete_L |]. repeat split.
Qed.

(** Extra: with the default [Target()] (pid 0, no exec required, event
    0), any process at a non-negative event count is the target, so
    replay-to-target attaches at the very first step boundary. *)
Theorem default_target_attaches_immediately (irq : nat -> bool) (s : GdbServer)
    (cur : ReplayPoint) (rest : list ReplayPoint) :
  target s = Target_default -> (0 <= rp_event cur)%Z ->
  at_target s cur = true /\
  exists s', replay_to_target irq 0 s cur rest = ReachedTarget s' 0.
Proof.
  intros Ht He.
  assert (Hat : at_target s cur = true).
  { unfold at_target. rewrite Ht. simpl. apply Z.leb_le. exact He. }
  split; [exact Hat |].
  destruct rest as [| next rest]; simpl;
    destruct (irq 0); simpl;
    [| rewrite Hat, orb_true_r | | rewrite Hat, orb_true_r]; eexists; reflexivity.
Qed.

Lemma default_target_attaches_immediately_witness :
  at_target (GdbServer_replay 0 Target_default) (mkReplayPoint 0%Z 1%Z false) = true /\
  exists s', replay_to_target (fun _ => false) 0 (GdbServer_replay 0 Target_default)
               (mkReplayPoint 0%Z 1%Z false) ex_trace = ReachedTarget s' 0.
Proof.
  apply default_target_attaches_immediately; [reflexivity | simpl; lia].
Defined.
